(** * voice-claude: the PTY session of [src/claude_pty.py]

    A shallow embedding of [ClaudePTY], the class that runs the wrapped
    command-line assistant in a pseudo-terminal and keeps a two-line status
    overlay below it, and the properties of it that the specification states.

    Python [str] values are sequences of Unicode code points; a code point
    is a number of [N].  Integers are [Z].  The object's attributes and the
    parts of the outside world the methods act on (the bytes written to
    [sys.stdout], the termios attributes of the controlling terminal, the
    child process) are the fields of one record, threaded through a small
    state-and-exception monad.

    The two reader threads are their loops, run turn by turn on what the
    reads return; a method runs to its end before the next one starts.
    The lock around the screen buffer, the pauses ([time.sleep]) and the
    flushes of stdout leave no trace in this state and are not written.
    [_read_input_windows] and [is_alive], which no property below is
    about, are left out. *)

From Stdlib Require Import String Ascii.
From Stdlib Require Import ZArith NArith List Bool Lia.
From Stdlib Require Import DecimalZ DecimalPos.
Import ListNotations.

Set Implicit Arguments.

(** ** Text *)

Definition char := N.
Definition str := list char.

(** An ASCII literal of the source as a sequence of code points. *)
Definition lit (s : string) : str := map N_of_ascii (list_ascii_of_string s).

Definition ESC : char := 27%N.   (* '\x1b' *)
Definition BEL : char := 7%N.    (* '\x07' *)
Definition LF : char := 10%N.    (* '\n' *)
Definition CR : char := 13%N.    (* '\r' *)
Definition SPACE : char := 32%N.
Definition GLYPH : char := 10095%N.  (* U+276F, the selection marker *)

Definition str_eqb (a b : str) : bool :=
  if list_eq_dec N.eq_dec a b then true else false.

(** ** The Python primitives the class uses *)

Module Py.

(** [len(s)] as an integer. *)
Definition len (s : str) : Z := Z.of_nat (length s).

Fixpoint digits (d : Decimal.uint) : str :=
  match d with
  | Decimal.Nil => []
  | Decimal.D0 d' => 48%N :: digits d'
  | Decimal.D1 d' => 49%N :: digits d'
  | Decimal.D2 d' => 50%N :: digits d'
  | Decimal.D3 d' => 51%N :: digits d'
  | Decimal.D4 d' => 52%N :: digits d'
  | Decimal.D5 d' => 53%N :: digits d'
  | Decimal.D6 d' => 54%N :: digits d'
  | Decimal.D7 d' => 55%N :: digits d'
  | Decimal.D8 d' => 56%N :: digits d'
  | Decimal.D9 d' => 57%N :: digits d'
  end.

(** [f"{n}"] for an [int]: decimal, a minus sign when negative. *)
Definition str_of_int (n : Z) : str :=
  match Z.to_int n with
  | Decimal.Pos d => digits d
  | Decimal.Neg d => 45%N :: digits d
  end.

Fixpoint startswith (p s : str) : bool :=
  match p, s with
  | [], _ => true
  | _ :: _, [] => false
  | a :: p', b :: s' => N.eqb a b && startswith p' s'
  end.

(** [sub in s] for strings. *)
Fixpoint contains (sub s : str) : bool :=
  startswith sub s ||
  match s with
  | [] => false
  | _ :: s' => contains sub s'
  end.

(** [s[:n]]. *)
Definition slice_to (A : Type) (n : Z) (s : list A) : list A :=
  if (0 <=? n)%Z then firstn (Z.to_nat n) s
  else firstn (length s - Z.to_nat (- n)) s.

(** [s[-n:]] for a positive constant [n]. *)
Definition slice_last (A : Type) (n : nat) (s : list A) : list A :=
  skipn (length s - n) s.

(** [format(s, "<w")] where the width [w] is written by formatting an
    integer: left-aligned, padded with spaces up to [w] characters.  A
    negative width is written with a sign, which the format
    specification of a string rejects with [ValueError]: [None]. *)
Definition format_left (s : str) (w : Z) : option str :=
  if (w <? 0)%Z then None
  else Some (s ++ repeat SPACE (Z.to_nat w - length s)).

(** [s.split(sep)] for a one-character separator. *)
Fixpoint split (sep : char) (s : str) : list str :=
  match s with
  | [] => [[]]
  | c :: s' =>
      if N.eqb c sep then [] :: split sep s'
      else match split sep s' with
           | [] => [[c]]
           | l :: ls => (c :: l) :: ls
           end
  end.

(** [sep.join(parts)]. *)
Fixpoint join (sep : char) (parts : list str) : str :=
  match parts with
  | [] => []
  | [l] => l
  | l :: ls => l ++ sep :: join sep ls
  end.

End Py.

(** ** Character classes

    [str.isalpha], [str.lower] and the classes [\s], [\d], [\w] and
    case-insensitive comparison of [re] follow the Unicode character
    database.  Below 128 they are written out; for the other code points
    they are the tables of the interpreter, which the class takes as
    given. *)

Record Unicode := {
  uni_isalpha : char -> bool;
  uni_isspace : char -> bool;
  uni_isdigit : char -> bool;
  uni_isalnum : char -> bool;
  uni_ieq : char -> char -> bool;
  uni_lower : char -> str
}.

Definition in_range (lo hi c : char) : bool := (lo <=? c)%N && (c <=? hi)%N.
Arguments in_range (lo hi c)%_N_scope.

Definition ascii_upper (c : char) : bool := in_range 65 90 c.
Definition ascii_lower (c : char) : bool := in_range 97 122 c.
Definition ascii_letter (c : char) : bool := ascii_upper c || ascii_lower c.
Definition ascii_digit (c : char) : bool := in_range 48 57 c.
Definition ascii_space (c : char) : bool :=
  in_range 9 13 c || in_range 28 32 c.
Definition ascii_tolower (c : char) : char :=
  if ascii_upper c then (c + 32)%N else c.

Section Classes.
Variable U : Unicode.

Definition is_ascii (c : char) : bool := (c <? 128)%N.

Definition isalpha_char (c : char) : bool :=
  if is_ascii c then ascii_letter c else uni_isalpha U c.

(** [s.isalpha()]: non-empty and every character alphabetic. *)
Definition isalpha (s : str) : bool :=
  match s with
  | [] => false
  | _ => forallb isalpha_char s
  end.

Definition lower_char (c : char) : str :=
  if is_ascii c then [ascii_tolower c] else uni_lower U c.

(** [s.lower()]. *)
Definition lower (s : str) : str := flat_map lower_char s.

(** [\s], [\d] and [\w] of a [str] pattern. *)
Definition re_space (c : char) : bool :=
  if is_ascii c then ascii_space c else uni_isspace U c.
Definition re_digit (c : char) : bool :=
  if is_ascii c then ascii_digit c else uni_isdigit U c.
Definition re_word (c : char) : bool :=
  if is_ascii c then ascii_letter c || ascii_digit c || N.eqb c 95
  else uni_isalnum U c.

(** A lower-case ASCII letter [p] of a pattern compiled with
    [re.IGNORECASE], against the character [c] of the text. *)
Definition re_ichar (p c : char) : bool :=
  if is_ascii c then N.eqb (ascii_tolower c) p else uni_ieq U c p.
End Classes.

(** ** Regular expressions

    The patterns of the source as syntax trees, and a backtracking matcher
    with the priorities of [re]: alternatives left to right, [*] greedy.
    The matcher is given the character before the current position, which
    [^] under [(?m)] and [\b] look at. *)

Inductive regex :=
| Eps
| Chr (c : char)
| Cls (p : char -> bool)
| Seq (a b : regex)
| Alt (a b : regex)
| Star (a : regex)
| Bol
| WordB (w : char -> bool).
Arguments Chr c%_N_scope.

Definition Plus (a : regex) : regex := Seq a (Star a).

Fixpoint Lit (s : str) : regex :=
  match s with
  | [] => Eps
  | [c] => Chr c
  | c :: s' => Seq (Chr c) (Lit s')
  end.

Module Re.

Definition is_word (w : char -> bool) (o : option char) : bool :=
  match o with
  | Some c => w c
  | None => false
  end.

(** [rmatch r prev s k]: match [r] at the head of [s], then hand the
    last character passed and the rest of the text to [k]; the first
    success in priority order. *)
Fixpoint rmatch (A : Type) (r : regex) (prev : option char) (s : str)
         (k : option char -> str -> option A) {struct r} : option A :=
  match r with
  | Eps => k prev s
  | Chr c =>
      match s with
      | x :: t => if N.eqb x c then k (Some x) t else None
      | [] => None
      end
  | Cls p =>
      match s with
      | x :: t => if p x then k (Some x) t else None
      | [] => None
      end
  | Seq a b => rmatch a prev s (fun p' s' => rmatch b p' s' k)
  | Alt a b =>
      match rmatch a prev s k with
      | Some x => Some x
      | None => rmatch b prev s k
      end
  | Star a =>
      (fix loop (n : nat) (prev : option char) (s : str) {struct n}
         : option A :=
         match n with
         | O => k prev s
         | S n' =>
             match rmatch a prev s
                     (fun p' s' =>
                        if length s' <? length s then loop n' p' s'
                        else None) with
             | Some x => Some x
             | None => k prev s
             end
         end) (length s) prev s
  | Bol =>
      match prev with
      | None => k prev s
      | Some c => if N.eqb c LF then k prev s else None
      end
  | WordB w =>
      if xorb (is_word w prev) (is_word w (hd_error s)) then k prev s
      else None
  end.

(** The match of [r] that starts here: the last character matched and
    the text after the match. *)
Definition match_at (r : regex) (prev : option char) (s : str)
  : option (option char * str) :=
  rmatch r prev s (fun p rest => Some (p, rest)).

Fixpoint search_from (r : regex) (prev : option char) (s : str) : bool :=
  match match_at r prev s with
  | Some _ => true
  | None =>
      match s with
      | [] => false
      | c :: t => search_from r (Some c) t
      end
  end.

(** [re.search(r, s)] as a truth value. *)
Definition search (r : regex) (s : str) : bool := search_from r None s.

(** [re.sub(r, '', s)] for a pattern that matches no empty string: the
    leftmost match is dropped and the scan goes on after it.  The
    counter bounds the number of steps by the length of the text. *)
Fixpoint sub_loop (n : nat) (r : regex) (prev : option char) (s : str)
  : str :=
  match n with
  | O => s
  | S n' =>
      match s with
      | [] => []
      | c :: t =>
          match match_at r prev s with
          | Some (p', rest) =>
              if length rest <? length s then sub_loop n' r p' rest
              else c :: sub_loop n' r (Some c) t
          | None => c :: sub_loop n' r (Some c) t
          end
      end
  end.

Definition sub_from (r : regex) (prev : option char) (s : str) : str :=
  sub_loop (length s) r prev s.

Definition sub (r : regex) (s : str) : str := sub_from r None s.

End Re.

(** ** The session and its world *)

(** Class constants. *)
Definition SCREEN_BUFFER_SIZE : nat := 4000.
Definition STATUS_BAR_LINES : Z := 2.
Definition DEBUG_ESCAPES : bool := false.

(** The termios attributes of the terminal: whether [tty.setraw] has been
    applied, and the rest of the settings. *)
Inductive termios := Termios (raw : bool) (rest : N).

Definition setraw (a : termios) : termios :=
  match a with Termios _ r => Termios true r end.

(** The terminal behind [sys.stdin].  The [termios] calls raise
    [termios.error] when it is not a terminal device. *)
Record Tty := {
  tty_isatty : bool;
  tty_attrs : termios
}.

(** [os.terminal_size]. *)
Record terminal_size := {
  columns : Z;
  lines : Z
}.

(** The child, as the object behind [self.process] shows it: what was
    spawned, every string handed to [send]/[write] in order, the window
    size last set, and whether it has been closed or terminated. *)
Record Proc := {
  command : str;
  argv : list str;
  cwd : option str;
  sent : list str;
  winsize : Z * Z;
  closed : bool
}.

Definition proc_send (data : str) (p : Proc) : Proc :=
  {| command := command p; argv := argv p; cwd := cwd p;
     sent := sent p ++ [data]; winsize := winsize p; closed := closed p |}.

Definition proc_setwinsize (rows cols : Z) (p : Proc) : Proc :=
  {| command := command p; argv := argv p; cwd := cwd p;
     sent := sent p; winsize := (rows, cols); closed := closed p |}.

Definition proc_close (p : Proc) : Proc :=
  {| command := command p; argv := argv p; cwd := cwd p;
     sent := sent p; winsize := winsize p; closed := true |}.

Record State := mkState {
  process : option Proc;  (* self.process *)
  running : bool;  (* self.running *)
  old_tty_settings : option termios;  (* self.old_tty_settings *)
  screen_buffer : str;  (* self._screen_buffer *)
  term_lines : Z;  (* self.term_lines *)
  term_cols : Z;  (* self.term_cols *)
  debug_file : option (list str);  (* self._debug_file: the sequences logged *)
  esc_buffer : str;  (* self._esc_buffer *)
  status_line1 : str;  (* self._status_line1 *)
  status_line2 : str;  (* self._status_line2 *)
  pty_lines : Z;  (* self._pty_lines *)
  needs_status_redraw : bool;  (* self._needs_status_redraw *)
  stdout : str;  (* everything written to sys.stdout, in order *)
  tty : Tty;  (* the controlling terminal behind sys.stdin *)
  sigwinch : bool;  (* whether _handle_resize is installed for SIGWINCH *)
  appended : str  (* ghost: everything ever added to _screen_buffer *)
}.

Definition set_process (v : option Proc) (s : State) : State :=
  mkState
    v (running s) (old_tty_settings s) (screen_buffer s) (term_lines s)
    (term_cols s) (debug_file s) (esc_buffer s) (status_line1 s)
    (status_line2 s) (pty_lines s) (needs_status_redraw s) (stdout s)
    (tty s) (sigwinch s) (appended s).
Definition set_running (v : bool) (s : State) : State :=
  mkState
    (process s) v (old_tty_settings s) (screen_buffer s) (term_lines s)
    (term_cols s) (debug_file s) (esc_buffer s) (status_line1 s)
    (status_line2 s) (pty_lines s) (needs_status_redraw s) (stdout s)
    (tty s) (sigwinch s) (appended s).
Definition set_old_tty_settings (v : option termios) (s : State) : State :=
  mkState
    (process s) (running s) v (screen_buffer s) (term_lines s) (term_cols s)
    (debug_file s) (esc_buffer s) (status_line1 s) (status_line2 s)
    (pty_lines s) (needs_status_redraw s) (stdout s) (tty s) (sigwinch s)
    (appended s).
Definition set_screen_buffer (v : str) (s : State) : State :=
  mkState
    (process s) (running s) (old_tty_settings s) v (term_lines s)
    (term_cols s) (debug_file s) (esc_buffer s) (status_line1 s)
    (status_line2 s) (pty_lines s) (needs_status_redraw s) (stdout s)
    (tty s) (sigwinch s) (appended s).
Definition set_term_lines (v : Z) (s : State) : State :=
  mkState
    (process s) (running s) (old_tty_settings s) (screen_buffer s) v
    (term_cols s) (debug_file s) (esc_buffer s) (status_line1 s)
    (status_line2 s) (pty_lines s) (needs_status_redraw s) (stdout s)
    (tty s) (sigwinch s) (appended s).
Definition set_term_cols (v : Z) (s : State) : State :=
  mkState
    (process s) (running s) (old_tty_settings s) (screen_buffer s)
    (term_lines s) v (debug_file s) (esc_buffer s) (status_line1 s)
    (status_line2 s) (pty_lines s) (needs_status_redraw s) (stdout s)
    (tty s) (sigwinch s) (appended s).
Definition set_debug_file (v : option (list str)) (s : State) : State :=
  mkState
    (process s) (running s) (old_tty_settings s) (screen_buffer s)
    (term_lines s) (term_cols s) v (esc_buffer s) (status_line1 s)
    (status_line2 s) (pty_lines s) (needs_status_redraw s) (stdout s)
    (tty s) (sigwinch s) (appended s).
Definition set_esc_buffer (v : str) (s : State) : State :=
  mkState
    (process s) (running s) (old_tty_settings s) (screen_buffer s)
    (term_lines s) (term_cols s) (debug_file s) v (status_line1 s)
    (status_line2 s) (pty_lines s) (needs_status_redraw s) (stdout s)
    (tty s) (sigwinch s) (appended s).
Definition set_status_line1 (v : str) (s : State) : State :=
  mkState
    (process s) (running s) (old_tty_settings s) (screen_buffer s)
    (term_lines s) (term_cols s) (debug_file s) (esc_buffer s) v
    (status_line2 s) (pty_lines s) (needs_status_redraw s) (stdout s)
    (tty s) (sigwinch s) (appended s).
Definition set_status_line2 (v : str) (s : State) : State :=
  mkState
    (process s) (running s) (old_tty_settings s) (screen_buffer s)
    (term_lines s) (term_cols s) (debug_file s) (esc_buffer s)
    (status_line1 s) v (pty_lines s) (needs_status_redraw s) (stdout s)
    (tty s) (sigwinch s) (appended s).
Definition set_pty_lines (v : Z) (s : State) : State :=
  mkState
    (process s) (running s) (old_tty_settings s) (screen_buffer s)
    (term_lines s) (term_cols s) (debug_file s) (esc_buffer s)
    (status_line1 s) (status_line2 s) v (needs_status_redraw s) (stdout s)
    (tty s) (sigwinch s) (appended s).
Definition set_needs_status_redraw (v : bool) (s : State) : State :=
  mkState
    (process s) (running s) (old_tty_settings s) (screen_buffer s)
    (term_lines s) (term_cols s) (debug_file s) (esc_buffer s)
    (status_line1 s) (status_line2 s) (pty_lines s) v (stdout s) (tty s)
    (sigwinch s) (appended s).
Definition set_stdout (v : str) (s : State) : State :=
  mkState
    (process s) (running s) (old_tty_settings s) (screen_buffer s)
    (term_lines s) (term_cols s) (debug_file s) (esc_buffer s)
    (status_line1 s) (status_line2 s) (pty_lines s) (needs_status_redraw s)
    v (tty s) (sigwinch s) (appended s).
Definition set_tty (v : Tty) (s : State) : State :=
  mkState
    (process s) (running s) (old_tty_settings s) (screen_buffer s)
    (term_lines s) (term_cols s) (debug_file s) (esc_buffer s)
    (status_line1 s) (status_line2 s) (pty_lines s) (needs_status_redraw s)
    (stdout s) v (sigwinch s) (appended s).
Definition set_sigwinch (v : bool) (s : State) : State :=
  mkState
    (process s) (running s) (old_tty_settings s) (screen_buffer s)
    (term_lines s) (term_cols s) (debug_file s) (esc_buffer s)
    (status_line1 s) (status_line2 s) (pty_lines s) (needs_status_redraw s)
    (stdout s) (tty s) v (appended s).
Definition set_appended (v : str) (s : State) : State :=
  mkState
    (process s) (running s) (old_tty_settings s) (screen_buffer s)
    (term_lines s) (term_cols s) (debug_file s) (esc_buffer s)
    (status_line1 s) (status_line2 s) (pty_lines s) (needs_status_redraw s)
    (stdout s) (tty s) (sigwinch s) v.

(** [ClaudePTY.__init__], on a terminal [t]. *)
Definition init (t : Tty) : State :=
  {| process := None;
     running := false;
     old_tty_settings := None;
     screen_buffer := [];
     term_lines := 24;
     term_cols := 80;
     debug_file := None;
     esc_buffer := [];
     status_line1 := [];
     status_line2 := [];
     pty_lines := 24;
     needs_status_redraw := false;
     stdout := [];
     tty := t;
     sigwinch := false;
     appended := [] |}.

(** ** Exceptions and the monad of the methods

    A method takes the state to an outcome and a state: what it changed
    before raising stays changed. *)

Inductive exn := ValueError | FileNotFoundError | ExceptionPexpect.

Inductive outcome (A : Type) :=
| Ok (a : A)
| Raise (e : exn).
Arguments Raise {A} e.

Definition M (A : Type) : Type := State -> outcome A * State.

Definition ret (A : Type) (a : A) : M A := fun s => (Ok a, s).

Definition bind (A B : Type) (m : M A) (k : A -> M B) : M B :=
  fun s =>
    match m s with
    | (Ok a, s') => k a s'
    | (Raise e, s') => (Raise e, s')
    end.

Definition raise (A : Type) (e : exn) : M A := fun s => (Raise e, s).
Arguments raise {A} e.

Definition get : M State := fun s => (Ok s, s).

Definition modify (f : State -> State) : M unit := fun s => (Ok tt, f s).

(** [try: m except Exception: h]. *)
Definition try_except (A : Type) (m : M A) (h : M A) : M A :=
  fun s =>
    match m s with
    | (Ok a, s') => (Ok a, s')
    | (Raise _, s') => h s'
    end.

Definition pass : M unit := ret tt.

Declare Scope monad_scope.
Delimit Scope monad_scope with monad.
Notation "x <- m ;; k" := (bind m (fun x => k))
  (at level 61, m at next level, right associativity) : monad_scope.
Notation "m ;; k" := (bind m (fun _ => k))
  (at level 61, right associativity) : monad_scope.

(** The state a method leaves and whether it returned. *)
Definition exec (A : Type) (m : M A) (s : State) : State := snd (m s).
Definition returns (A : Type) (m : M A) (s : State) : bool :=
  match fst (m s) with
  | Ok _ => true
  | Raise _ => false
  end.

(** Truth of a string, of an optional object. *)
Definition nonempty (A : Type) (l : list A) : bool :=
  match l with
  | [] => false
  | _ :: _ => true
  end.

Definition is_some (A : Type) (o : option A) : bool :=
  match o with
  | Some _ => true
  | None => false
  end.

(** [range(a, b)]. *)
Definition range (a b : Z) : list Z :=
  map (fun i => (a + Z.of_nat i)%Z) (seq 0 (Z.to_nat (b - a))).

(** ** Control sequences written by the session *)

(** [f"\x1b[1;{n}r"]: set the scroll region to rows 1..n. *)
Definition scroll_region_seq (n : Z) : str :=
  ESC :: lit "[1;" ++ Py.str_of_int n ++ lit "r".

(** [f"\x1b[{row};1H"]: move the cursor to the first column of a row. *)
Definition cursor_to_seq (row : Z) : str :=
  ESC :: lit "[" ++ Py.str_of_int row ++ lit ";1H".

Definition SAVE_CURSOR : str := ESC :: lit "[s".
Definition RESTORE_CURSOR : str := ESC :: lit "[u".
Definition CLEAR_LINE : str := ESC :: lit "[2K".
Definition RESET_SCROLL_REGION : str := ESC :: lit "[r".
Definition CLEAR_SCREEN : str := ESC :: lit "[2J".
Definition CURSOR_HOME : str := ESC :: lit "[H".

(** [f" {line:<{cols - 1}}"[:cols]]: a space, the text padded to
    [cols - 1] characters, the whole cut at [cols] characters. *)
Definition status_text (line : str) (cols : Z) : option str :=
  match Py.format_left line (cols - 1) with
  | Some padded => Some (Py.slice_to cols (SPACE :: padded))
  | None => None
  end.

(** ** The patterns of the source *)

(** [[0-9;]], [[a-zA-Z]], [[^\x07]]. *)
Definition csi_param (c : char) : bool := ascii_digit c || N.eqb c 59.
Definition not_bel (c : char) : bool := negb (N.eqb c BEL).

(** [r'\x1b\[[0-9;]*[a-zA-Z]'] *)
Definition CSI_RE : regex :=
  Seq (Chr ESC) (Seq (Chr 91) (Seq (Star (Cls csi_param)) (Cls ascii_letter))).

(** [r'\x1b\][^\x07]*\x07'] *)
Definition OSC_RE : regex :=
  Seq (Chr ESC) (Seq (Chr 93) (Seq (Star (Cls not_bel)) (Chr BEL))).


(** [r'\[(?:y/n|Y/N|yes/no|Yes/No)\]'] *)
Definition YES_NO_RE : regex :=
  Seq (Chr 91)
    (Seq (Alt (Lit (lit "y/n"))
            (Alt (Lit (lit "Y/N"))
               (Alt (Lit (lit "yes/no")) (Lit (lit "Yes/No")))))
       (Chr 93)).

(** The two re.sub calls of [get_screen_state]. *)
Definition strip_ansi (text : str) : str :=
  let text := Re.sub CSI_RE text in
  let text := Re.sub OSC_RE text in
  text.

(** What [start] finds outside the object. *)
Record StartEnv := {
  env_size : option terminal_size;  (* os.get_terminal_size(); None: OSError *)
  env_which : option str;           (* shutil.which("claude") *)
  env_spawn : bool;                 (* whether the spawn call succeeds *)
  env_cwd : option str              (* VOICE_CLAUDE_ORIGINAL_CWD *)
}.

(** One turn of [read_nonblocking(size=1, timeout=0.1)]: the decoded text
    read (at most one character), or the exception raised. *)
Inductive read_result :=
| Read (char : str)
| TIMEOUT
| EOF
| ReadError.


(** One turn of [os.read(fd, 1024)] on the keyboard, decoded as UTF-8
    with undecodable bytes ignored: the text of a non-empty read, an
    empty read, or an error. *)
Inductive input_result :=
| Input (data : str)
| InputEmpty
| InputError.

Section Session.

(** [IS_WINDOWS = sys.platform == "win32"], and the character tables of
    the interpreter. *)
Variable IS_WINDOWS : bool.
Variable U : Unicode.

Local Open Scope monad_scope.
Local Open Scope Z_scope.

(** [sys.stdout.write(x)]; the flush that follows each batch of writes
    changes nothing in the order of the bytes. *)
Definition write (x : str) : M unit :=
  modify (fun s => set_stdout (stdout s ++ x) s).

(** [self.process.send(data)] / [self.process.write(data)]. *)
Definition process_send (data : str) : M unit :=
  modify (fun s =>
            match process s with
            | Some p => set_process (Some (proc_send data p)) s
            | None => s
            end).

Definition draw_status_bar (line1 line2 : str) : M unit :=
  s <- get ;;
  if negb (running s) then ret tt
  else
    modify (set_status_line1 line1) ;;
    modify (set_status_line2 line2) ;;
    s <- get ;;
    let output := SAVE_CURSOR in
    let row1 := term_lines s - 1 in
    let row2 := term_lines s in
    let output := output ++ cursor_to_seq row1 in
    let output := output ++ CLEAR_LINE in
    let output := output ++ ESC :: lit "[30;47m" in
    match status_text line1 (term_cols s) with
    | None => raise ValueError
    | Some text1 =>
        let output := output ++ text1 in
        let output := output ++ ESC :: lit "[0m" in
        let output := output ++ cursor_to_seq row2 in
        let output := output ++ CLEAR_LINE in
        let output := output ++ ESC :: lit "[97m" in
        match status_text line2 (term_cols s) with
        | None => raise ValueError
        | Some text2 =>
            let output := output ++ text2 in
            let output := output ++ ESC :: lit "[0m" in
            let output := output ++ RESTORE_CURSOR in
            write output
        end
    end.

Definition restore_status_bar : M unit :=
  s <- get ;;
  write (scroll_region_seq (pty_lines s)) ;;
  if nonempty (status_line1 s)
  then draw_status_bar (status_line1 s) (status_line2 s)
  else pass.

Definition track_escape_sequence (char : str) : M unit :=
  s <- get ;;
  if str_eqb char [ESC] then
    modify (set_esc_buffer char)
  else if nonempty (esc_buffer s) then
    modify (set_esc_buffer (esc_buffer s ++ char)) ;;
    if isalpha U char || str_eqb char (lit "~") then
      s <- get ;;
      let seq := esc_buffer s in
      (if DEBUG_ESCAPES && is_some (debug_file s) then
         if Py.contains (lit "[r") seq || Py.contains (lit "?1049") seq
            || Py.contains (lit "[2J") seq || Py.contains (lit "[H") seq
         then modify (set_debug_file
                        (option_map (fun log => log ++ [seq]) (debug_file s)))
         else pass
       else pass) ;;
      (if str_eqb seq RESET_SCROLL_REGION then restore_status_bar
       else pass) ;;
      modify (set_esc_buffer [])
    else
      s <- get ;;
      if (20 <? length (esc_buffer s))%nat then modify (set_esc_buffer [])
      else pass
  else pass.

Definition restore_terminal : M unit :=
  if IS_WINDOWS then pass
  else
    s <- get ;;
    match old_tty_settings s with
    | Some old =>
        if tty_isatty (tty s) then
          modify (set_tty {| tty_isatty := true; tty_attrs := old |}) ;;
          modify (set_old_tty_settings None)
        else pass  (* termios.error *)
    | None => pass
    end ;;
    write RESET_SCROLL_REGION ;;
    write CLEAR_SCREEN ;;
    write CURSOR_HOME.

(** [self._screen_buffer += data], trimmed to its last
    [SCREEN_BUFFER_SIZE] characters. *)
Definition buffer_append (data : str) : M unit :=
  modify (fun s => set_appended (appended s ++ data)
                     (set_screen_buffer (screen_buffer s ++ data) s)) ;;
  s <- get ;;
  if (SCREEN_BUFFER_SIZE <? length (screen_buffer s))%nat then
    modify (set_screen_buffer
              (Py.slice_last SCREEN_BUFFER_SIZE (screen_buffer s)))
  else pass.

(** One turn of the loop of [_read_output_unix]; [true] when the loop
    goes on. *)
Definition read_output_unix_step (r : read_result) : M bool :=
  s <- get ;;
  if running s && is_some (process s) then
    match r with
    | Read char =>
        try_except
          (write char ;;
           track_escape_sequence char ;;
           buffer_append char ;;
           ret true)
          (restore_terminal ;; ret false)
    | TIMEOUT =>
        (if needs_status_redraw s && nonempty (status_line1 s) then
           modify (set_needs_status_redraw false) ;;
           draw_status_bar (status_line1 s) (status_line2 s)
         else pass) ;;
        ret true
    | EOF =>
        modify (set_running false) ;;
        restore_terminal ;;
        ret false
    | ReadError =>
        restore_terminal ;;
        ret false
    end
  else ret false.

(** The loop, on the successive results of the reads. *)
Fixpoint read_output_unix (rs : list read_result) : M unit :=
  match rs with
  | [] => pass
  | r :: rs' =>
      go <- read_output_unix_step r ;;
      if go then read_output_unix rs' else pass
  end.



(** One turn of the loop of [_read_input_unix]. *)
Definition read_input_unix_step (r : input_result) : M bool :=
  s <- get ;;
  if running s then
    match r with
    | InputEmpty => ret false
    | InputError => ret false
    | Input data =>
        if Py.contains (ESC :: lit "[M") data
           || Py.contains (ESC :: lit "[<") data
        then ret true
        else
          (if is_some (process s) && running s then process_send data
           else pass) ;;
          ret true
    end
  else ret false.

Fixpoint read_input_unix (rs : list input_result) : M unit :=
  match rs with
  | [] => pass
  | r :: rs' =>
      go <- read_input_unix_step r ;;
      if go then read_input_unix rs' else pass
  end.

(** [_handle_resize], given what [os.get_terminal_size()] answers
    ([None]: it raises [OSError], which the handler swallows). *)
Definition handle_resize (size : option terminal_size) : M unit :=
  match size with
  | None => pass
  | Some size =>
      s <- get ;;
      let old_pty_lines := pty_lines s in
      modify (set_term_lines (lines size)) ;;
      modify (set_term_cols (columns size)) ;;
      modify (fun s => set_pty_lines (term_lines s - STATUS_BAR_LINES) s) ;;
      s <- get ;;
      (if pty_lines s <? old_pty_lines then
         let output := SAVE_CURSOR in
         let output :=
           fold_left
             (fun output line => output ++ cursor_to_seq line ++ CLEAR_LINE)
             (range (pty_lines s + 1) (old_pty_lines + 1)) output in
         let output := output ++ RESTORE_CURSOR in
         write output
       else pass) ;;
      write (scroll_region_seq (pty_lines s)) ;;
      match process s with
      | Some p =>
          modify (set_process
                    (Some (proc_setwinsize (pty_lines s) (term_cols s) p)))
      | None => pass
      end ;;
      modify (set_needs_status_redraw true)
  end.

(** Delivery of SIGWINCH: the handler runs when [_start_unix] has
    installed it; the signal is ignored otherwise. *)
Definition sigwinch_signal (size : option terminal_size) : M unit :=
  s <- get ;;
  if sigwinch s then handle_resize size else pass.

Definition spawn (cmd : str) (args : list str) (dims : Z * Z)
           (dir : option str) : Proc :=
  {| command := cmd; argv := args; cwd := dir; sent := [];
     winsize := dims; closed := false |}.

Definition start_windows (args : option (list str)) (env : StartEnv)
  : M unit :=
  match env_which env with
  | None => raise FileNotFoundError
  | Some claude_path =>
      let cmd := claude_path in
      let cmd :=
        match args with
        | Some (a :: l) =>
            let quoted_args :=
              map (fun arg =>
                     if Py.contains [SPACE] arg
                     then [34%N] ++ arg ++ [34%N]  (* the quote character *)
                     else arg) (a :: l) in
            cmd ++ [SPACE] ++ Py.join SPACE quoted_args
        | _ => cmd
        end in
      s <- get ;;
      if env_spawn env then
        modify (set_process
                  (Some (spawn cmd [] (pty_lines s, term_cols s)
                           (env_cwd env))))
      else raise ExceptionPexpect
  end.

Definition start_unix (args : option (list str)) (env : StartEnv)
  : M unit :=
  s <- get ;;
  let dimensions := (pty_lines s, term_cols s) in
  write (scroll_region_seq (pty_lines s)) ;;
  modify (set_sigwinch true) ;;
  (if env_spawn env then
     modify (set_process
               (Some (spawn (lit "claude")
                        (match args with Some l => l | None => [] end)
                        dimensions (env_cwd env))))
   else raise ExceptionPexpect) ;;
  (if DEBUG_ESCAPES then modify (set_debug_file (Some [])) else pass) ;;
  s <- get ;;
  if tty_isatty (tty s) then
    modify (set_old_tty_settings (Some (tty_attrs (tty s)))) ;;
    modify (set_tty {| tty_isatty := true;
                       tty_attrs := setraw (tty_attrs (tty s)) |})
  else modify (set_old_tty_settings None).

(** [start]; the two reader threads it launches are the loops above,
    run on the reads that happen. *)
Definition start (args : option (list str)) (env : StartEnv) : M unit :=
  match env_size env with
  | Some size =>
      modify (set_term_lines (lines size)) ;;
      modify (set_term_cols (columns size))
  | None =>
      modify (set_term_lines 24) ;;
      modify (set_term_cols 80)
  end ;;
  modify (fun s => set_pty_lines (term_lines s - STATUS_BAR_LINES) s) ;;
  (if IS_WINDOWS then start_windows args env else start_unix args env) ;;
  modify (set_running true).

Definition send (text : str) : M unit :=
  s <- get ;;
  if negb (is_some (process s)) || negb (running s) then ret tt
  else if IS_WINDOWS then
    process_send text ;;
    process_send [CR]
  else
    process_send text ;;
    process_send [CR].

Definition key_map : list (str * str) :=
  [ (lit "enter", [CR]);
    (lit "return", [CR]);
    (lit "escape", [ESC]);
    (lit "esc", [ESC]);
    (lit "up", ESC :: lit "[A");
    (lit "down", ESC :: lit "[B");
    (lit "right", ESC :: lit "[C");
    (lit "left", ESC :: lit "[D");
    (lit "tab", [9%N]);
    (lit "shift+tab", ESC :: lit "[Z");
    (lit "backtab", ESC :: lit "[Z");
    (lit "backspace", [127%N]);
    (lit "delete", ESC :: lit "[3~");
    (lit "home", ESC :: lit "[H");
    (lit "end", ESC :: lit "[F") ].

Fixpoint lookup (k : str) (m : list (str * str)) : option str :=
  match m with
  | [] => None
  | (k', v) :: m' => if str_eqb k k' then Some v else lookup k m'
  end.

Definition send_key (key : str) : M unit :=
  s <- get ;;
  if negb (is_some (process s)) || negb (running s) then ret tt
  else
    let key_lower := lower U key in
    let data :=
      match lookup key_lower key_map with
      | Some d => d
      | None => if (length key =? 1)%nat then key else key
      end in
    if IS_WINDOWS then process_send data else process_send data.

(** [send_keys]; the pause between two keys leaves no trace in the
    state. *)
Fixpoint send_keys (keys : list str) : M unit :=
  match keys with
  | [] => pass
  | key :: keys' =>
      send_key key ;;
      send_keys keys'
  end.

Definition send_escape : M unit :=
  s <- get ;;
  if negb (is_some (process s)) || negb (running s) then ret tt
  else send_key (lit "escape").

Definition send_interrupt : M unit :=
  s <- get ;;
  if negb (is_some (process s)) || negb (running s) then ret tt
  else if IS_WINDOWS then process_send [3%N]
  else process_send [3%N].

Definition stop : M unit :=
  modify (set_running false) ;;
  restore_terminal ;;
  s <- get ;;
  match process s with
  | Some p => modify (set_process (Some (proc_close p)))
  | None => pass
  end.

Definition get_screen_state (s : State) : str :=
  let text := screen_buffer s in
  let text := strip_ansi text in
  let lines := Py.split LF text in
  Py.join LF (Py.slice_last 50 lines).

(** The alternatives of a pattern compiled with [re.IGNORECASE]. *)
Fixpoint ILit (s : str) : regex :=
  match s with
  | [] => Eps
  | [c] => Cls (re_ichar U c)
  | c :: s' => Seq (Cls (re_ichar U c)) (ILit s')
  end.

(** [r'(?m)^\s*\d+\.\s+\w+'] *)
Definition NUMBERED_RE : regex :=
  Seq Bol
    (Seq (Star (Cls (re_space U)))
       (Seq (Plus (Cls (re_digit U)))
          (Seq (Chr 46)
             (Seq (Plus (Cls (re_space U))) (Plus (Cls (re_word U))))))).

(** [r'\b(allow|deny|approve|reject|permission|permit|grant|refuse)\b']
    with [flags=re.IGNORECASE]. *)
Definition WORDS_RE : regex :=
  Seq (WordB (re_word U))
    (Seq (Alt (ILit (lit "allow"))
            (Alt (ILit (lit "deny"))
               (Alt (ILit (lit "approve"))
                  (Alt (ILit (lit "reject"))
                     (Alt (ILit (lit "permission"))
                        (Alt (ILit (lit "permit"))
                           (Alt (ILit (lit "grant"))
                              (ILit (lit "refuse")))))))))
       (WordB (re_word U))).

(** The classifier of [has_menu_prompt] on the screen text. *)
Definition menu_prompt_in (text : str) : bool :=
  if Py.contains [GLYPH] text then true
  else if Re.search YES_NO_RE text then true
  else if Re.search NUMBERED_RE text && Re.search WORDS_RE text then true
  else false.

Definition has_menu_prompt (s : State) : bool :=
  let text := get_screen_state s in
  menu_prompt_in text.


(** A succession of SIGWINCH signals, each with the size the terminal
    then reports. *)
Fixpoint signals (sizes : list (option terminal_size)) : M unit :=
  match sizes with
  | [] => pass
  | size :: sizes' =>
      sigwinch_signal size ;;
      signals sizes'
  end.

End Session.

(** ** The real terminal, as far as the session drives it

    What a VT100-style terminal makes of the characters written to
    stdout, restricted to what the session relies on: the scroll region
    (DECSTBM, final [r]), absolute cursor placement (CUP, final [H]) and
    the full clear ([2J]).  An [ESC] starts a new sequence wherever it
    arrives.  The cursor is known only while nothing but absolute
    placement has moved it. *)

Module Terminal.

Inductive parse_state :=
| Ground
| Escape
| Csi (params : str).

Inductive token :=
| Plain (c : char)
| Control (params : str) (final : char).

Definition lex_step (ps : parse_state) (c : char)
  : parse_state * option token :=
  if N.eqb c ESC then (Escape, None)
  else
    match ps with
    | Ground => (Ground, Some (Plain c))
    | Escape => if N.eqb c 91 then (Csi [], None) else (Ground, None)
    | Csi params =>
        if in_range 32 63 c then (Csi (params ++ [c]), None)
        else if in_range 64 126 c then (Ground, Some (Control params c))
        else (Ground, None)
    end.


Definition digit_of (c : char) (d : Decimal.uint) : option Decimal.uint :=
  if N.eqb c 48 then Some (Decimal.D0 d)
  else if N.eqb c 49 then Some (Decimal.D1 d)
  else if N.eqb c 50 then Some (Decimal.D2 d)
  else if N.eqb c 51 then Some (Decimal.D3 d)
  else if N.eqb c 52 then Some (Decimal.D4 d)
  else if N.eqb c 53 then Some (Decimal.D5 d)
  else if N.eqb c 54 then Some (Decimal.D6 d)
  else if N.eqb c 55 then Some (Decimal.D7 d)
  else if N.eqb c 56 then Some (Decimal.D8 d)
  else if N.eqb c 57 then Some (Decimal.D9 d)
  else None.

Fixpoint undigits (s : str) : option Decimal.uint :=
  match s with
  | [] => Some Decimal.Nil
  | c :: s' =>
      match undigits s' with
      | Some d => digit_of c d
      | None => None
      end
  end.

(** One parameter: absent, a number, or malformed. *)
Definition param (s : str) : option (option Z) :=
  match s with
  | [] => Some None
  | _ => option_map (fun d => Some (Z.of_uint d)) (undigits s)
  end.

Fixpoint all_params (l : list str) : option (list (option Z)) :=
  match l with
  | [] => Some []
  | p :: l' =>
      match param p, all_params l' with
      | Some v, Some vs => Some (v :: vs)
      | _, _ => None
      end
  end.

Definition params_of (s : str) : option (list (option Z)) :=
  all_params (Py.split 59%N s).

Record Screen := {
  scroll_region : option (Z * Z);  (* None: the whole screen *)
  cursor : option (Z * Z);         (* (row, column) when known *)
  blank : bool                     (* nothing drawn since the last clear *)
}.

Definition default (d : Z) (o : option Z) : Z :=
  match o with
  | Some v => v
  | None => d
  end.

(** The target of a cursor-placement sequence. *)
Definition cup_target (params : str) : option (Z * Z) :=
  match params_of params with
  | Some [r] => Some (default 1 r, 1%Z)
  | Some [r; c] => Some (default 1 r, default 1 c)
  | _ => None
  end.

Definition apply (t : token) (sc : Screen) : Screen :=
  match t with
  | Plain c =>
      {| scroll_region := scroll_region sc;
         cursor := None;
         blank := if in_range 32 126 c || (160 <=? c)%N then false
                  else blank sc |}
  | Control params final =>
      if N.eqb final 114 then        (* r *)
        match params_of params with
        | Some [None] | Some [None; None] =>
            {| scroll_region := None; cursor := Some (1, 1)%Z;
               blank := blank sc |}
        | Some [Some top; Some bottom] =>
            {| scroll_region := Some (top, bottom);
               cursor := Some (1, 1)%Z; blank := blank sc |}
        | _ => sc
        end
      else if N.eqb final 72 then    (* H *)
        match cup_target params with
        | Some rc =>
            {| scroll_region := scroll_region sc; cursor := Some rc;
               blank := blank sc |}
        | None => sc
        end
      else if N.eqb final 74 then    (* J *)
        match params_of params with
        | Some [Some 2%Z] =>
            {| scroll_region := scroll_region sc; cursor := cursor sc;
               blank := true |}
        | _ => sc
        end
      else if N.eqb final 117 then   (* u *)
        {| scroll_region := scroll_region sc; cursor := None;
           blank := blank sc |}
      else sc                         (* s, K, m *)
  end.

Record Term := {
  parser : parse_state;
  screen : Screen
}.

Definition step (t : Term) (c : char) : Term :=
  match lex_step (parser t) c with
  | (ps', Some k) => {| parser := ps'; screen := apply k (screen t) |}
  | (ps', None) => {| parser := ps'; screen := screen t |}
  end.

(** The terminal after the characters [s]. *)
Definition run (t : Term) (s : str) : Term := fold_left step s t.


End Terminal.

(** ** Texts with control sequences, as the specification describes them *)












(** ** Concrete sessions, for the examples *)

(** Character tables that put no code point above 127 in any class. *)
Definition ascii_only : Unicode :=
  {| uni_isalpha := fun _ => false;
     uni_isspace := fun _ => false;
     uni_isdigit := fun _ => false;
     uni_isalnum := fun _ => false;
     uni_ieq := fun _ _ => false;
     uni_lower := fun c => [c] |}.

Definition a_tty : Tty :=
  {| tty_isatty := true; tty_attrs := Termios false 0 |}.

Definition an_env : StartEnv :=
  {| env_size := Some {| columns := 80; lines := 24 |};
     env_which := Some (lit "/usr/bin/claude");
     env_spawn := true;
     env_cwd := None |}.

(** A session just started on the POSIX side, on a 24x80 terminal. *)
Definition started : State := exec (start false None an_env) (init a_tty).


(** ** Predicates of the statements *)

(** The rows of the child and the two overlay rows make up the terminal. *)
Definition rows_ok (s : State) : Prop := (pty_lines s + 2 = term_lines s)%Z.

(** The session before [start] has completed (never started, or [start]
    raised), or after [stop]. *)
Definition before_start_or_after_stop (W : bool) (s : State) : Prop :=
  (exists t, s = init t)
  \/ (exists t args env,
        returns (start W args env) (init t) = false
        /\ s = exec (start W args env) (init t))
  \/ (exists s0, s = exec (stop W) s0).





(** The character before the text that follows [pre], when [prev] is
    the character before [pre]. *)
Definition last_char (prev : option char) (pre : str) : option char :=
  fold_left (fun _ c => Some c) pre prev.

(** The vocabulary of the third pattern of [has_menu_prompt]. *)
Definition VOCABULARY : list str :=
  [ lit "allow"; lit "deny"; lit "approve"; lit "reject";
    lit "permission"; lit "permit"; lit "grant"; lit "refuse" ].


(** * Properties *)

(** ** Running the monad *)

Ltac unfold_m :=
  unfold exec, returns, bind, ret, modify, get, pass, raise, try_except in *.

Ltac break_match :=
  match goal with
  | |- context [match ?x with _ => _ end] =>
      lazymatch x with
      | context [match _ with _ => _ end] => fail
      | _ => destruct x eqn:?
      end
  end.

Ltac crush_m := unfold_m; simpl; repeat (break_match; simpl); auto.

Ltac expose_m :=
  cbv beta iota zeta
      delta [try_except bind write modify get ret pass process_send].

Local Open Scope Z_scope.

(** ** Geometry: the rows of the child *)


Lemma handle_resize_rows (sz : terminal_size) (s : State) :
  let s' := exec (handle_resize (Some sz)) s in
  term_lines s' = lines sz /\ term_cols s' = columns sz /\
  pty_lines s' = lines sz - 2.
Proof.
  unfold handle_resize. crush_m; repeat split; reflexivity.
Qed.

Lemma handle_resize_none (s : State) : handle_resize None s = (Ok tt, s).
Proof. reflexivity. Qed.

Lemma sigwinch_signal_eq (size : option terminal_size) (s : State) :
  sigwinch_signal size s =
  if sigwinch s then handle_resize size s else (Ok tt, s).
Proof.
  unfold sigwinch_signal, bind, get. destruct (sigwinch s); reflexivity.
Qed.

Lemma sigwinch_signal_rows (size : option terminal_size) (s : State) :
  rows_ok s -> rows_ok (exec (sigwinch_signal size) s).
Proof.
  intros H. unfold exec. rewrite sigwinch_signal_eq.
  destruct (sigwinch s); [| exact H].
  destruct size as [sz|]; [| exact H].
  destruct (handle_resize_rows sz s) as (H1 & _ & H3).
  unfold rows_ok, exec in *. lia.
Qed.

Lemma signals_cons (sizes : list (option terminal_size))
      (size : option terminal_size) (s : State) :
  exec (signals (size :: sizes)) s =
  exec (signals sizes) (exec (sigwinch_signal size) s).
Proof.
  unfold exec. simpl. unfold bind at 1.
  destruct (sigwinch_signal size s) as [[[]|e] s'] eqn:E; [reflexivity|].
  exfalso. rewrite sigwinch_signal_eq in E.
  destruct (sigwinch s); [| discriminate].
  destruct size; [| discriminate].
  revert E. unfold handle_resize. crush_m; discriminate.
Qed.

Lemma signals_rows (sizes : list (option terminal_size)) (s : State) :
  rows_ok s -> rows_ok (exec (signals sizes) s).
Proof.
  revert s. induction sizes as [|size sizes IH]; intros s H; [exact H|].
  rewrite signals_cons. apply IH, sigwinch_signal_rows, H.
Qed.

Lemma start_rows (W : bool) (args : option (list str)) (env : StartEnv)
      (s : State) :
  let s' := exec (start W args env) s in
  pty_lines s' + 2 = term_lines s' /\
  term_lines s' = (match env_size env with
                   | Some size => lines size
                   | None => 24
                   end).
Proof.
  unfold start, start_windows, start_unix, STATUS_BAR_LINES.
  crush_m; split; solve [reflexivity | lia].
Qed.

Lemma sigwinch_signal_keeps_handler (size : option terminal_size) (s : State) :
  sigwinch (exec (sigwinch_signal size) s) = sigwinch s.
Proof.
  unfold exec. rewrite sigwinch_signal_eq.
  destruct (sigwinch s) eqn:E; [| exact E].
  destruct size; [| exact E].
  unfold handle_resize. crush_m.
Qed.

Lemma signals_last (sizes : list (option terminal_size)) (s : State)
      (sz : terminal_size) :
  sigwinch s = true -> last sizes None = Some sz ->
  let s' := exec (signals sizes) s in
  term_lines s' = lines sz /\ pty_lines s' = lines sz - 2.
Proof.
  revert s. induction sizes as [|size sizes IH]; intros s Hh Hl.
  - discriminate.
  - rewrite signals_cons. destruct sizes as [|x r].
    + simpl in Hl. subst size. cbv zeta.
      change (exec (signals []) ?x) with x.
      unfold exec. rewrite sigwinch_signal_eq, Hh.
      destruct (handle_resize_rows sz s) as (H1 & _ & H3). split; assumption.
    + apply IH; [| exact Hl].
      rewrite sigwinch_signal_keeps_handler. exact Hh.
Qed.

(** C2.  On a terminal of at least three rows, once [start] is over the
    child has the rows of the terminal less the two of the overlay, and
    after any succession of resize signals the rows of the child plus two
    are the rows of the terminal (those of the size last reported, when
    the handler is installed). *)
Theorem child_rows_plus_two_are_terminal_rows
        (W : bool) (args : option (list str)) (env : StartEnv) (t : Tty)
        (size : terminal_size) (sizes : list (option terminal_size)) :
  env_size env = Some size -> 3 <= lines size -> 1 <= columns size ->
  let s := exec (start W args env) (init t) in
  let s' := exec (signals sizes) s in
  pty_lines s = lines size - 2 /\
  pty_lines s + 2 = term_lines s /\
  pty_lines s' + 2 = term_lines s' /\
  (forall sz, sigwinch s = true -> last sizes None = Some sz ->
              term_lines s' = lines sz /\ pty_lines s' = lines sz - 2).
Proof.
  intros Hsize _ _ s s'.
  destruct (start_rows W args env (init t)) as [H1 H2].
  fold s in H1, H2. rewrite Hsize in H2.
  repeat split.
  - lia.
  - exact H1.
  - apply signals_rows. exact H1.
  - apply signals_last; assumption.
  - apply signals_last; assumption.
Qed.

Lemma child_rows_plus_two_witness :
  pty_lines started = 22 /\
  pty_lines (exec (signals [None; Some {| columns := 100; lines := 40 |}])
               started) = 38.
Proof.
  destruct (@child_rows_plus_two_are_terminal_rows
              false None an_env a_tty {| columns := 80; lines := 24 |}
              [None; Some {| columns := 100; lines := 40 |}]
              eq_refl ltac:(simpl; lia) ltac:(simpl; lia))
    as (H1 & _ & _ & H4).
  split; [exact H1 |].
  exact (proj2 (H4 {| columns := 100; lines := 40 |} eq_refl eq_refl)).
Defined.

(** ** Operations on a session that is not running *)

Lemma send_keys_not_running (W : bool) (U : Unicode) (keys : list str)
      (s : State) :
  running s = false -> send_keys W U keys s = (Ok tt, s).
Proof.
  intros H. induction keys as [|key keys IH]; [reflexivity|].
  simpl. unfold bind at 1. unfold send_key at 1. unfold bind at 1, get.
  rewrite H, orb_true_r. exact IH.
Qed.

Lemma not_running_noop (W : bool) (U : Unicode) (s : State) :
  running s = false ->
  (forall text, send W text s = (Ok tt, s))
  /\ (forall key, send_key W U key s = (Ok tt, s))
  /\ (forall keys, send_keys W U keys s = (Ok tt, s))
  /\ send_escape W U s = (Ok tt, s)
  /\ send_interrupt W s = (Ok tt, s)
  /\ (forall line1 line2, draw_status_bar line1 line2 s = (Ok tt, s)).
Proof.
  intros H. repeat split; intros;
    try (apply send_keys_not_running; exact H);
    unfold send, send_key, send_escape, send_interrupt, draw_status_bar,
      bind, get, ret; rewrite H; simpl; rewrite ?orb_true_r; reflexivity.
Qed.

Lemma stop_not_running (W : bool) (s : State) :
  running (exec (stop W) s) = false.
Proof.
  unfold stop, restore_terminal. crush_m.
Qed.

Lemma start_keeps_not_running (W : bool) (args : option (list str))
      (env : StartEnv) (s : State) :
  running s = false -> returns (start W args env) s = false ->
  running (exec (start W args env) s) = false.
Proof.
  intros H. unfold start, start_windows, start_unix.
  crush_m; discriminate.
Qed.

(** C7.  On a session that has not been started, whose [start] did not
    complete, or that has been stopped, each of [send], [send_key],
    [send_keys], [send_escape], [send_interrupt] and [draw_status_bar]
    returns without raising and leaves the whole state as it was: nothing
    is sent to the child and nothing is written to the terminal. *)
Theorem idle_operations_are_noops (W : bool) (U : Unicode) (s : State) :
  before_start_or_after_stop W s ->
  (forall text, send W text s = (Ok tt, s))
  /\ (forall key, send_key W U key s = (Ok tt, s))
  /\ (forall keys, send_keys W U keys s = (Ok tt, s))
  /\ send_escape W U s = (Ok tt, s)
  /\ send_interrupt W s = (Ok tt, s)
  /\ (forall line1 line2, draw_status_bar line1 line2 s = (Ok tt, s)).
Proof.
  intros H. apply not_running_noop.
  destruct H as [[t ->] | [(t & args & env & Hr & ->) | [s0 ->]]].
  - reflexivity.
  - apply start_keeps_not_running; [reflexivity | exact Hr].
  - apply stop_not_running.
Qed.

Lemma idle_operations_witness :
  send false (lit "hello") (exec (stop false) started)
  = (Ok tt, exec (stop false) started).
Proof.
  exact (proj1 (@idle_operations_are_noops false ascii_only
                  (exec (stop false) started)
                  (or_intror (or_intror (ex_intro _ started eq_refl))))
               (lit "hello")).
Defined.

Local Close Scope Z_scope.

(** ** The screen buffer *)








Lemma track_escape_sequence_eq (U : Unicode) (char : str) (s : State) :
  track_escape_sequence U char s =
  if str_eqb char [ESC] then (Ok tt, set_esc_buffer char s)
  else if nonempty (esc_buffer s) then
    let s1 := set_esc_buffer (esc_buffer s ++ char) s in
    if isalpha U char || str_eqb char (lit "~") then
      if str_eqb (esc_buffer s ++ char) RESET_SCROLL_REGION then
        match restore_status_bar s1 with
        | (Ok _, s2) => (Ok tt, set_esc_buffer [] s2)
        | (Raise e, s2) => (Raise e, s2)
        end
      else (Ok tt, set_esc_buffer [] s1)
    else if 20 <? length (esc_buffer s ++ char)
         then (Ok tt, set_esc_buffer [] s1)
         else (Ok tt, s1)
  else (Ok tt, s).
Proof.
  cbv beta iota zeta
      delta [track_escape_sequence bind get modify pass ret DEBUG_ESCAPES andb].
  destruct (str_eqb char [ESC]); [reflexivity|].
  destruct (nonempty (esc_buffer s)); [| reflexivity].
  destruct (isalpha U char || str_eqb char (lit "~")).
  - change (esc_buffer (set_esc_buffer (esc_buffer s ++ char) s))
      with (esc_buffer s ++ char).
    destruct (str_eqb (esc_buffer s ++ char) RESET_SCROLL_REGION);
      [| reflexivity].
    destruct (restore_status_bar _) as [[[]|e] s2]; reflexivity.
  - change (esc_buffer (set_esc_buffer (esc_buffer s ++ char) s))
      with (esc_buffer s ++ char).
    destruct (20 <? length (esc_buffer s ++ char)); reflexivity.
Qed.




Lemma read_output_unix_cons (W : bool) (U : Unicode) (r : read_result)
      (rs : list read_result) (s : State) :
  exec (read_output_unix W U (r :: rs)) s =
  match read_output_unix_step W U r s with
  | (Ok true, s1) => exec (read_output_unix W U rs) s1
  | (_, s1) => s1
  end.
Proof.
  unfold exec. cbn [read_output_unix]. unfold bind.
  destruct (read_output_unix_step W U r s) as [[[|]|e] s1]; reflexivity.
Qed.







(** ** Decimal numbers in control sequences *)







(** ** Splitting *)





(** ** Reading control sequences on the terminal *)

Lemma run_app (t : Terminal.Term) (a b : str) :
  Terminal.run t (a ++ b) = Terminal.run (Terminal.run t a) b.
Proof. apply fold_left_app. Qed.




Lemma run_restore (t : Terminal.Term) :
  Terminal.run t (RESET_SCROLL_REGION ++ CLEAR_SCREEN ++ CURSOR_HOME)
  = {| Terminal.parser := Terminal.Ground;
       Terminal.screen :=
         {| Terminal.scroll_region := None;
            Terminal.cursor := Some (1, 1)%Z;
            Terminal.blank := true |} |}.
Proof. destruct t as [[| |params] sc]; reflexivity. Qed.

(** ** The scroll region *)







(** ** Stopping *)

Lemma stop_eq (W : bool) (s : State) :
  stop W s =
  (Ok tt,
   let s1 := set_running false s in
   let s2 :=
     if W then s1
     else
       let s3 :=
         match old_tty_settings s1 with
         | Some old =>
             if tty_isatty (tty s1)
             then set_old_tty_settings None
                    (set_tty {| tty_isatty := true; tty_attrs := old |} s1)
             else s1
         | None => s1
         end in
       set_stdout (stdout s3 ++ RESET_SCROLL_REGION ++ CLEAR_SCREEN
                     ++ CURSOR_HOME) s3 in
   match process s2 with
   | Some p => set_process (Some (proc_close p)) s2
   | None => s2
   end).
Proof.
  unfold stop, restore_terminal. expose_m.
  destruct W; simpl.
  - destruct (process s); reflexivity.
  - destruct (old_tty_settings s); [destruct (tty_isatty (tty s))|];
      simpl; rewrite <- ?app_assoc; destruct (process s); reflexivity.
Qed.

(** C8.  [stop] never raises, the first time or the second.  After the
    second call the terminal is as after the first: the screen state the
    written bytes produce, the termios attributes, and every field of the
    session but the record of the bytes written are the same.  On the
    POSIX side each call writes the three restoring sequences, after
    which the scroll region is the whole screen, the screen is blank and
    the cursor is at home; and the attributes saved by [start] are those
    of the terminal again. *)
Theorem stop_is_idempotent (W : bool) (s : State) (T0 : Terminal.Term) :
  let s1 := exec (stop W) s in
  let s2 := exec (stop W) s1 in
  let restore := RESET_SCROLL_REGION ++ CLEAR_SCREEN ++ CURSOR_HOME in
  returns (stop W) s = true
  /\ returns (stop W) s1 = true
  /\ Terminal.run T0 (stdout s2) = Terminal.run T0 (stdout s1)
  /\ tty s2 = tty s1
  /\ set_stdout [] s2 = set_stdout [] s1
  /\ (W = false ->
      stdout s1 = stdout s ++ restore
      /\ stdout s2 = stdout s1 ++ restore
      /\ Terminal.screen (Terminal.run T0 (stdout s1))
         = {| Terminal.scroll_region := None;
              Terminal.cursor := Some (1, 1)%Z;
              Terminal.blank := true |}
      /\ (forall old, old_tty_settings s = Some old ->
                      tty_isatty (tty s) = true ->
                      tty_attrs (tty s1) = old /\ old_tty_settings s1 = None)).
Proof.
  intros s1 s2 restore. subst s1 s2. unfold exec, returns.
  rewrite !stop_eq. cbv zeta. cbn [fst snd].
  destruct W.
  - destruct (process s) as [p|] eqn:Ep;
      repeat (progress (simpl; rewrite ?Ep));
      (repeat split; try reflexivity; try (intros; congruence)).
  - destruct (old_tty_settings s) as [old|] eqn:Eo;
      [destruct (tty_isatty (tty s)) eqn:Ea|];
      destruct (process s) as [p|] eqn:Ep;
      repeat (progress (simpl; rewrite ?Eo, ?Ea, ?Ep));
      (repeat split; try reflexivity;
       try (rewrite !run_app, !run_restore; reflexivity);
       try (intros; congruence)).
Qed.

(** ** The status overlay *)







Lemma status_text_length (line : str) (cols : Z) :
  (0 < cols)%Z ->
  exists text,
    status_text line cols = Some text
    /\ text = firstn (Z.to_nat cols)
                (SPACE :: line
                 ++ repeat SPACE (Z.to_nat (cols - 1) - length line))
    /\ Py.len text = cols.
Proof.
  intros H. unfold status_text, Py.format_left, Py.slice_to.
  destruct (cols - 1 <? 0)%Z eqn:E; [apply Z.ltb_lt in E; lia|].
  destruct (0 <=? cols)%Z eqn:E2; [| apply Z.leb_gt in E2; lia].
  eexists. split; [reflexivity|]. split; [reflexivity|].
  unfold Py.len. rewrite length_firstn. cbn [length].
  rewrite length_app, repeat_length. lia.
Qed.







(** ** The escape tracker *)

(** What the reader has written only grows, and the redraw flag is out
    of the reach of the tracker and of the drawing. *)
Ltac solve_grows :=
  first [ split; [reflexivity|]
        | idtac ];
  first [ eexists; rewrite <- ?app_assoc; reflexivity
        | exists []; symmetry; apply app_nil_r ].

Lemma draw_status_bar_grows (l1 l2 : str) (s : State) :
  let s' := snd (draw_status_bar l1 l2 s) in
  needs_status_redraw s' = needs_status_redraw s
  /\ exists tail, stdout s' = stdout s ++ tail.
Proof. unfold draw_status_bar. crush_m; solve_grows. Qed.

Lemma restore_terminal_grows (W : bool) (s : State) :
  let s' := snd (restore_terminal W s) in
  needs_status_redraw s' = needs_status_redraw s
  /\ exists tail, stdout s' = stdout s ++ tail.
Proof. unfold restore_terminal. crush_m; solve_grows. Qed.

Lemma restore_status_bar_grows (s : State) :
  let s' := snd (restore_status_bar s) in
  needs_status_redraw s' = needs_status_redraw s
  /\ exists tail,
      stdout s' = stdout s ++ scroll_region_seq (pty_lines s) ++ tail.
Proof.
  unfold restore_status_bar. expose_m.
  destruct (nonempty (status_line1 s)).
  - pose proof (draw_status_bar_grows (status_line1 s) (status_line2 s)
                  (set_stdout (stdout s ++ scroll_region_seq (pty_lines s)) s))
      as [F [tail G]].
    split; [exact F|]. exists tail. rewrite G. cbn [stdout set_stdout].
    symmetry. apply app_assoc.
  - split; [reflexivity|]. exists []. cbn [snd stdout set_stdout].
    rewrite app_nil_r. reflexivity.
Qed.

Lemma track_escape_sequence_grows (U : Unicode) (char : str) (s : State) :
  let s' := snd (track_escape_sequence U char s) in
  needs_status_redraw s' = needs_status_redraw s
  /\ exists tail, stdout s' = stdout s ++ tail.
Proof.
  rewrite track_escape_sequence_eq.
  repeat (break_match; simpl); try solve [solve_grows].
  all: pose proof (restore_status_bar_grows
                     (set_esc_buffer (esc_buffer s ++ char) s))
    as [F [tail G]];
    match goal with E : restore_status_bar _ = _ |- _ => rewrite E in F, G end;
    (split; [exact F|]); eexists; exact G.
Qed.

Lemma read_output_unix_step_grows (W : bool) (U : Unicode) (r : read_result)
      (s : State) :
  exists tail, stdout (snd (read_output_unix_step W U r s)) = stdout s ++ tail.
Proof.
  unfold read_output_unix_step. expose_m.
  destruct (running s && is_some (process s)); [| simpl; solve_grows].
  destruct r as [char| | |].
  - pose proof (track_escape_sequence_grows U char
                  (set_stdout (stdout s ++ char) s)) as [_ [t1 G1]].
    destruct (track_escape_sequence U char _) as [[[]|e] s2]; simpl in G1.
    + unfold buffer_append. expose_m.
      destruct (_ <? _); simpl; rewrite G1; solve_grows.
    + pose proof (restore_terminal_grows W s2) as [_ [t2 G2]].
      destruct (restore_terminal W s2) as [[[]|e'] s3]; simpl in *;
        rewrite G2, G1; solve_grows.
  - destruct (needs_status_redraw s && nonempty (status_line1 s)).
    + pose proof (draw_status_bar_grows (status_line1 s) (status_line2 s)
                    (set_needs_status_redraw false s)) as [_ [t1 G1]].
      destruct (draw_status_bar _ _ _) as [[[]|e] s1]; simpl in *;
        rewrite G1; solve_grows.
    + simpl. solve_grows.
  - pose proof (restore_terminal_grows W (set_running false s))
      as [_ [t2 G2]].
    destruct (restore_terminal W _) as [[[]|e'] s3]; simpl in *;
      rewrite G2; solve_grows.
  - pose proof (restore_terminal_grows W s) as [_ [t2 G2]].
    destruct (restore_terminal W _) as [[[]|e'] s3]; simpl in *;
      rewrite G2; solve_grows.
Qed.

Lemma read_output_unix_grows (W : bool) (U : Unicode)
      (rs : list read_result) (s : State) :
  exists tail, stdout (exec (read_output_unix W U rs) s) = stdout s ++ tail.
Proof.
  revert s. induction rs as [|r rs IH]; intros s.
  - exists []. symmetry. apply app_nil_r.
  - rewrite read_output_unix_cons.
    destruct (read_output_unix_step_grows W U r s) as [t1 G1].
    destruct (read_output_unix_step W U r s) as [[[|]|e] s1]; simpl in G1.
    + destruct (IH s1) as [t2 G2]. rewrite G2, G1. solve_grows.
    + rewrite G1. solve_grows.
    + rewrite G1. solve_grows.
Qed.

Lemma read_output_unix_app (W : bool) (U : Unicode)
      (rs rs' : list read_result) (s : State) :
  exists tail,
    stdout (exec (read_output_unix W U (rs ++ rs')) s)
    = stdout (exec (read_output_unix W U rs) s) ++ tail.
Proof.
  revert s. induction rs as [|r rs IH]; intros s.
  - apply read_output_unix_grows.
  - cbn [app]. rewrite !read_output_unix_cons.
    destruct (read_output_unix_step W U r s) as [[[|]|e] s1].
    + apply IH.
    + exists []. symmetry. apply app_nil_r.
    + exists []. symmetry. apply app_nil_r.
Qed.

(** A read whose tracking returns: the character is relayed, tracked and
    appended to the screen buffer, and the loop goes on. *)
Lemma read_step_tracked (W : bool) (U : Unicode) (char : str)
      (s s2 : State) :
  running s = true -> process s <> None ->
  track_escape_sequence U char (set_stdout (stdout s ++ char) s) = (Ok tt, s2) ->
  exists b a,
    read_output_unix_step W U (Read char) s
    = (Ok true, set_appended a (set_screen_buffer b s2)).
Proof.
  intros Hr Hp E. unfold read_output_unix_step. expose_m.
  rewrite Hr. destruct (process s); [| congruence]. cbn [is_some andb].
  rewrite E. unfold buffer_append. expose_m.
  destruct (_ <? _); eexists; eexists; reflexivity.
Qed.

(** What [draw_status_bar] writes depends on the running flag and the
    geometry only. *)
Lemma draw_status_bar_stdout_congr (l1 l2 : str) (s s' : State) :
  running s = running s' -> term_lines s = term_lines s' ->
  term_cols s = term_cols s' ->
  exists out,
    stdout (snd (draw_status_bar l1 l2 s)) = stdout s ++ out
    /\ stdout (snd (draw_status_bar l1 l2 s')) = stdout s' ++ out.
Proof.
  intros Hr Hl Hc. unfold draw_status_bar. expose_m.
  rewrite Hr. destruct (running s'); cbn [negb].
  - cbn [term_cols term_lines set_status_line1 set_status_line2].
    rewrite Hl, Hc.
    destruct (status_text l1 (term_cols s'));
      [destruct (status_text l2 (term_cols s'))|]; cbn [snd stdout set_stdout];
      first [ eexists; split; reflexivity
            | exists []; rewrite !app_nil_r; split; reflexivity ].
  - exists []. rewrite !app_nil_r. split; reflexivity.
Qed.

Lemma draw_status_bar_returns (l1 l2 : str) (s : State) :
  (0 < term_cols s)%Z -> fst (draw_status_bar l1 l2 s) = Ok tt.
Proof.
  intros Hc. unfold draw_status_bar. expose_m.
  destruct (running s); cbn [negb]; [| reflexivity].
  cbn [term_cols term_lines set_status_line1 set_status_line2].
  destruct (@status_text_length l1 (term_cols s) Hc) as (t1 & E1 & _).
  destruct (@status_text_length l2 (term_cols s) Hc) as (t2 & E2 & _).
  rewrite E1, E2. reflexivity.
Qed.

Lemma nonempty_iff (A : Type) (l : list A) : nonempty l = true <-> l <> [].
Proof. destruct l; simpl; split; congruence. Qed.

Lemma str_eqb_eq (a b : str) : str_eqb a b = true <-> a = b.
Proof. unfold str_eqb. destruct (list_eq_dec N.eq_dec a b); split; congruence. Qed.

Lemma str_eqb_neq (a b : str) : str_eqb a b = false <-> a <> b.
Proof. unfold str_eqb. destruct (list_eq_dec N.eq_dec a b); split; congruence. Qed.

(** The three reads of the sequence [ESC [ r], on a running session:
    they reach [_restore_status_bar] in a state [X] that differs from the
    first in what was written, the escape buffer and the screen buffer. *)
Lemma reads_of_reset (U : Unicode) (s : State) :
  running s = true -> process s <> None ->
  let s3 := exec (read_output_unix false U
                    [Read [ESC]; Read (lit "["); Read (lit "r")]) s in
  exists X,
    (needs_status_redraw X = needs_status_redraw s
     /\ stdout X = stdout s ++ RESET_SCROLL_REGION
     /\ pty_lines X = pty_lines s
     /\ status_line1 X = status_line1 s
     /\ status_line2 X = status_line2 s
     /\ running X = running s
     /\ term_lines X = term_lines s
     /\ term_cols X = term_cols s)
    /\ match restore_status_bar X with
       | (Ok _, s4) =>
           exists b' a',
           s3 = set_appended a' (set_screen_buffer b' (set_esc_buffer [] s4))
       | (Raise _, s4) => s3 = snd (restore_terminal false s4)
       end.
Proof.
  intros Hr Hp. cbv zeta.
  assert (Hs : is_some (process s) = true)
    by (destruct (process s); [reflexivity | congruence]).
  (* ESC *)
  destruct (@read_step_tracked false U [ESC] s
              (set_esc_buffer [ESC] (set_stdout (stdout s ++ [ESC]) s))
              Hr Hp) as (b1 & a1 & E1).
  { rewrite track_escape_sequence_eq. reflexivity. }
  rewrite read_output_unix_cons, E1.
  set (s1 := set_appended a1 _).
  (* [ *)
  destruct (@read_step_tracked false U (lit "[") s1
              (set_esc_buffer (ESC :: lit "[")
                 (set_stdout (stdout s1 ++ lit "[") s1))
              Hr Hp) as (b2 & a2 & E2).
  { rewrite track_escape_sequence_eq. reflexivity. }
  rewrite read_output_unix_cons, E2.
  set (s2 := set_appended a2 _).
  (* r *)
  rewrite read_output_unix_cons.
  unfold read_output_unix_step. expose_m.
  change (running s2) with (running s). change (process s2) with (process s).
  rewrite Hr, Hs. cbn [andb].
  rewrite track_escape_sequence_eq.
  change (str_eqb (lit "r") [ESC]) with false. cbv iota.
  change (nonempty (esc_buffer (set_stdout (stdout s2 ++ lit "r") s2)))
    with true. cbv iota zeta.
  change (isalpha U (lit "r") || str_eqb (lit "r") (lit "~")) with true.
  cbv iota.
  change (str_eqb (esc_buffer (set_stdout (stdout s2 ++ lit "r") s2)
                   ++ lit "r") RESET_SCROLL_REGION) with true.
  cbv iota.
  match goal with
  | |- context [restore_status_bar (set_esc_buffer ?x ?y)] =>
      exists (set_esc_buffer x y)
  end.
  split.
  { repeat split; try reflexivity; try exact Hr.
    subst s2 s1. cbn [stdout set_stdout set_esc_buffer set_appended
                        set_screen_buffer].
    rewrite <- !app_assoc. reflexivity. }
  destruct (restore_status_bar _) as [[[]|e] s4]; cbv beta iota.
  - unfold buffer_append. expose_m.
    cbn [screen_buffer set_appended set_screen_buffer].
    destruct (Nat.ltb SCREEN_BUFFER_SIZE _); cbv beta iota;
      unfold exec; cbn [read_output_unix]; unfold pass, ret; cbn [snd];
      eexists; eexists; reflexivity.
  - destruct (restore_terminal false s4) as [[[]|e'] s5]; reflexivity.
Qed.

(** C3, as the code has it.  The tracker starts (and restarts) its buffer
    at an escape character, ignores text outside a sequence, collects
    every further string it is given, ends the sequence at a letter or a
    tilde, and drops a buffer grown beyond 20 characters without writing
    anything.  When the three reads [ESC], [[], [r] have been relayed on a
    running session, the terminal has received them, then at once the
    sequence [ESC[1;<child rows>r], before anything read later; the
    redraw flag is as it was; and the overlay is drawn again at once
    after the sequence when a first status line is stored (nothing more
    is written when none is). *)
Theorem escape_tracker_reissues_scroll_region
        (U : Unicode) (s : State) (rs : list read_result) :
  running s = true -> process s <> None ->
  let reset := [Read [ESC]; Read (lit "["); Read (lit "r")] in
  let s3 := exec (read_output_unix false U reset) s in
  let reissued :=
    stdout s ++ RESET_SCROLL_REGION ++ scroll_region_seq (pty_lines s) in
  (forall s0, track_escape_sequence U [ESC] s0
              = (Ok tt, set_esc_buffer [ESC] s0))
  /\ (forall s0 char,
         char <> [ESC] -> esc_buffer s0 = [] ->
         track_escape_sequence U char s0 = (Ok tt, s0))
  /\ (forall s0 char,
         char <> [ESC] -> esc_buffer s0 <> [] ->
         isalpha U char || str_eqb char (lit "~") = false ->
         track_escape_sequence U char s0
         = (Ok tt,
            set_esc_buffer
              (if 20 <? length (esc_buffer s0 ++ char) then []
               else esc_buffer s0 ++ char) s0))
  /\ (forall s0 char,
         char <> [ESC] -> esc_buffer s0 <> [] ->
         isalpha U char || str_eqb char (lit "~") = true ->
         esc_buffer s0 ++ char <> RESET_SCROLL_REGION ->
         track_escape_sequence U char s0 = (Ok tt, set_esc_buffer [] s0))
  /\ (exists tail, stdout s3 = reissued ++ tail)
  /\ (exists tail,
         stdout (exec (read_output_unix false U (reset ++ rs)) s)
         = reissued ++ tail)
  /\ needs_status_redraw s3 = needs_status_redraw s
  /\ (status_line1 s = [] -> stdout s3 = reissued)
  /\ (status_line1 s <> [] -> (0 < term_cols s)%Z ->
      stdout s3
      = stdout (exec (draw_status_bar (status_line1 s) (status_line2 s))
                     (set_stdout reissued s))).
Proof.
  intros Hr Hp reset s3 reissued.
  assert (T1 : forall s0, track_escape_sequence U [ESC] s0
                          = (Ok tt, set_esc_buffer [ESC] s0)).
  { intros s0. rewrite track_escape_sequence_eq. reflexivity. }
  assert (T2 : forall s0 char,
             char <> [ESC] -> esc_buffer s0 = [] ->
             track_escape_sequence U char s0 = (Ok tt, s0)).
  { intros s0 char Hc Hb. rewrite track_escape_sequence_eq.
    apply str_eqb_neq in Hc. rewrite Hc, Hb. reflexivity. }
  assert (T3 : forall s0 char,
             char <> [ESC] -> esc_buffer s0 <> [] ->
             isalpha U char || str_eqb char (lit "~") = false ->
             track_escape_sequence U char s0
             = (Ok tt,
                set_esc_buffer
                  (if 20 <? length (esc_buffer s0 ++ char) then []
                   else esc_buffer s0 ++ char) s0)).
  { intros s0 char Hc Hb Ha. rewrite track_escape_sequence_eq.
    apply str_eqb_neq in Hc. apply nonempty_iff in Hb.
    rewrite Hc, Hb, Ha. cbv zeta.
    destruct (20 <? length (esc_buffer s0 ++ char)); reflexivity. }
  assert (T4 : forall s0 char,
             char <> [ESC] -> esc_buffer s0 <> [] ->
             isalpha U char || str_eqb char (lit "~") = true ->
             esc_buffer s0 ++ char <> RESET_SCROLL_REGION ->
             track_escape_sequence U char s0
             = (Ok tt, set_esc_buffer [] s0)).
  { intros s0 char Hc Hb Ha Hn. rewrite track_escape_sequence_eq.
    apply str_eqb_neq in Hc, Hn. apply nonempty_iff in Hb.
    rewrite Hc, Hb, Ha. cbv zeta. rewrite Hn. reflexivity. }
  destruct (@reads_of_reset U s Hr Hp)
    as (X & (X1 & X2 & X3 & X4 & X5 & X6 & X7 & X8) & R).
  fold reset s3 in R.
  destruct (read_output_unix_app false U reset rs s) as [t4 E4].
  fold s3 in E4. clearbody s3.
  pose proof (restore_status_bar_grows X) as [F [tail G]].
  rewrite X1 in F. rewrite X2, X3 in G.
  assert (G' : stdout (snd (restore_status_bar X)) = reissued ++ tail).
  { rewrite G. unfold reissued. rewrite <- !app_assoc. reflexivity. }
  clear G. rename G' into G.
  assert (S3 : exists tail, stdout s3 = reissued ++ tail).
  { destruct (restore_status_bar X) as [[[]|e] s4]; cbn [snd] in F, G.
    - destruct R as (b' & a' & ->). exists tail. exact G.
    - destruct (restore_terminal_grows false s4) as [_ [t2 G2]].
      rewrite R, G2, G. exists (tail ++ t2). symmetry. apply app_assoc. }
  split; [exact T1|]. split; [exact T2|]. split; [exact T3|].
  split; [exact T4|]. split; [exact S3|].
  split; [| split; [| split]].
  - destruct S3 as [t3 E3].
    rewrite E4, E3. exists (t3 ++ t4).
    symmetry. apply app_assoc.
  - destruct (restore_status_bar X) as [[[]|e] s4]; cbn [snd] in F, G.
    + destruct R as (b' & a' & ->). exact F.
    + destruct (restore_terminal_grows false s4) as [F2 _].
      rewrite R, F2. exact F.
  - intros Hl. revert R. unfold restore_status_bar. expose_m.
    rewrite X4, Hl. cbn [nonempty]. intros (b' & a' & ->).
    cbn [stdout set_stdout set_appended set_screen_buffer set_esc_buffer].
    rewrite X2, X3. unfold reissued. symmetry. apply app_assoc.
  - intros Hl Hc. revert R. unfold restore_status_bar. expose_m.
    rewrite X4, X5, X3, X2.
    apply nonempty_iff in Hl. rewrite Hl.
    set (Y := set_stdout _ X).
    assert (Hcy : (0 < term_cols Y)%Z) by (subst Y; cbn [term_cols set_stdout]; rewrite X8; exact Hc).
    pose proof (@draw_status_bar_returns (status_line1 s) (status_line2 s) Y Hcy)
      as Hy.
    destruct (@draw_status_bar_stdout_congr (status_line1 s) (status_line2 s)
                Y (set_stdout reissued s) X6 X7 X8)
      as (out & O1 & O2).
    unfold exec. rewrite O2.
    destruct (draw_status_bar (status_line1 s) (status_line2 s) Y)
      as [[[]|e] s4]; cbn [fst snd] in Hy, O1; [| discriminate Hy].
    intros (b' & a' & ->).
    cbn [stdout set_stdout set_appended set_screen_buffer set_esc_buffer].
    rewrite O1. subst Y. unfold reissued. cbn [stdout set_stdout].
    rewrite <- !app_assoc. reflexivity.
Qed.

Lemma escape_tracker_witness :
  stdout (exec (read_output_unix false ascii_only
                  [Read [ESC]; Read (lit "["); Read (lit "r")]) started)
  = stdout started ++ RESET_SCROLL_REGION ++ scroll_region_seq 22.
Proof.
  exact (proj1 (proj2 (proj2 (proj2 (proj2 (proj2 (proj2 (proj2
           (@escape_tracker_reissues_scroll_region ascii_only started []
              eq_refl ltac:(discriminate))))))))) eq_refl).
Defined.

(** C3 as stated fails: whatever the character tables, after the three
    reads [ESC], [[], [r] on the session just started the redraw flag is
    not set (and, no status line being stored, nothing is drawn). *)
Lemma reset_sequence_does_not_set_redraw_flag :
  ~ (exists U : Unicode,
        needs_status_redraw
          (exec (read_output_unix false U
                   [Read [ESC]; Read (lit "["); Read (lit "r")]) started)
        = true).
Proof.
  intros [U H]. vm_compute in H. discriminate H.
Qed.

(** ** Substitution *)


Lemma sub_from_nil (r : regex) (prev : option char) : Re.sub_from r prev [] = [].
Proof. reflexivity. Qed.










(** ** Scanning a sequence *)





(** ** The first pattern, on the segments *)





(** ** The second pattern, on what the first leaves *)






(** ** Lines *)







(** ** The input relay *)









(** ** The menu classifier *)

Lemma contains_char (c : char) (text : str) :
  Py.contains [c] text = true <-> In c text.
Proof.
  induction text as [|x t IH]; simpl.
  - split; [discriminate | contradiction].
  - rewrite andb_true_r, orb_true_iff, IH, N.eqb_eq.
    split; intros [H|H]; auto.
Qed.

Lemma search_from_found (r : regex) (rest : str) :
  (forall prev, Re.match_at r prev rest <> None) ->
  forall (pre : str) (prev : option char),
    Re.search_from r prev (pre ++ rest) = true.
Proof.
  intros H. induction pre as [|c pre IH]; intros prev.
  - specialize (H prev). cbn [app].
    destruct rest; cbn [Re.search_from];
      destruct (Re.match_at r prev _); congruence.
  - cbn [app Re.search_from].
    destruct (Re.match_at r prev (c :: pre ++ rest)); [reflexivity|].
    apply IH.
Qed.

Lemma yes_no_found (pre post w : str) :
  In w [lit "y/n"; lit "Y/N"; lit "yes/no"; lit "Yes/No"] ->
  Re.search YES_NO_RE (pre ++ lit "[" ++ w ++ lit "]" ++ post) = true.
Proof.
  intros H. unfold Re.search. apply search_from_found. intros prev.
  destruct H as [<-|[<-|[<-|[<-|[]]]]]; vm_compute; discriminate.
Qed.

Lemma search_from_at (r : regex) (rest : str) :
  forall (pre : str) (prev : option char),
    Re.match_at r (last_char prev pre) rest <> None ->
    Re.search_from r prev (pre ++ rest) = true.
Proof.
  induction pre as [|c pre IH]; intros prev H.
  - cbn [app]. simpl in H.
    destruct rest; cbn [Re.search_from];
      destruct (Re.match_at r prev _); congruence.
  - cbn [app Re.search_from].
    destruct (Re.match_at r prev (c :: pre ++ rest)); [reflexivity|].
    apply IH. exact H.
Qed.

(** A starred class stops at a character outside the class, and cannot
    fail before a continuation that cannot. *)
Lemma star_stop (A : Type) (p : char -> bool) (prev : option char)
      (x : char) (t : str) (k : option char -> str -> option A) :
  p x = false ->
  Re.rmatch (Star (Cls p)) prev (x :: t) k = k prev (x :: t).
Proof. intros H. cbn [Re.rmatch length]. rewrite H. reflexivity. Qed.

Lemma star_nil (A : Type) (a : regex) (prev : option char)
      (k : option char -> str -> option A) :
  Re.rmatch (Star a) prev [] k = k prev [].
Proof. reflexivity. Qed.

Lemma star_total (A : Type) (a : regex) (k : option char -> str -> option A) :
  (forall p s, k p s <> None) ->
  forall prev s, Re.rmatch (Star a) prev s k <> None.
Proof.
  intros Hk prev s. cbn [Re.rmatch].
  generalize (length s) at 1. intros n. revert prev s.
  induction n as [|n IH]; intros prev s; [apply Hk|].
  destruct (Re.rmatch a prev s _); [discriminate | apply Hk].
Qed.

Lemma digit_classes (U : Unicode) (d : char) :
  ascii_digit d = true ->
  re_space U d = false /\ re_digit U d = true.
Proof.
  unfold ascii_digit, in_range. intros H.
  apply andb_true_iff in H. destruct H as [H1 H2].
  pose proof H1 as H1'. pose proof H2 as H2'.
  apply N.leb_le in H1', H2'.
  assert (A : is_ascii d = true) by (apply N.ltb_lt; lia).
  unfold re_space, re_digit, ascii_space, ascii_digit, in_range.
  rewrite A, H1, H2. split; [| reflexivity].
  apply orb_false_iff. split; apply andb_false_iff.
  - right. apply N.leb_gt. lia.
  - right. apply N.leb_gt. lia.
Qed.

Lemma letter_classes (U : Unicode) (w : char) :
  ascii_letter w = true ->
  re_space U w = false /\ re_word U w = true.
Proof.
  intros H. pose proof H as H'.
  unfold ascii_letter, ascii_upper, ascii_lower, in_range in H'.
  assert (R : (65 <= w <= 122)%N).
  { apply orb_true_iff in H'.
    destruct H' as [H'|H']; apply andb_true_iff in H'; destruct H' as [H1 H2];
      apply N.leb_le in H1, H2; lia. }
  assert (A : is_ascii w = true) by (apply N.ltb_lt; lia).
  unfold re_space, re_word, ascii_space, in_range. rewrite A, H.
  split; [| reflexivity].
  apply orb_false_iff. split; apply andb_false_iff; right; apply N.leb_gt; lia.
Qed.

Lemma rmatch_Seq (A : Type) (a b : regex) (prev : option char) (s : str)
      (k : option char -> str -> option A) :
  Re.rmatch (Seq a b) prev s k
  = Re.rmatch a prev s (fun p' s' => Re.rmatch b p' s' k).
Proof. reflexivity. Qed.

Lemma rmatch_Cls (A : Type) (p : char -> bool) (prev : option char)
      (x : char) (t : str) (k : option char -> str -> option A) :
  p x = true -> Re.rmatch (Cls p) prev (x :: t) k = k (Some x) t.
Proof. intros H. cbn [Re.rmatch]. rewrite H. reflexivity. Qed.

Lemma rmatch_Chr (A : Type) (x : char) (prev : option char) (t : str)
      (k : option char -> str -> option A) :
  Re.rmatch (Chr x) prev (x :: t) k = k (Some x) t.
Proof. cbn [Re.rmatch]. rewrite N.eqb_refl. reflexivity. Qed.

Lemma numbered_line_found (U : Unicode) (pre post : str) (d w : char) :
  last_char None pre = None \/ last_char None pre = Some LF ->
  ascii_digit d = true -> ascii_letter w = true ->
  Re.search (NUMBERED_RE U) (pre ++ d :: lit ". " ++ w :: post) = true.
Proof.
  intros Hl Hd Hw. unfold Re.search. apply search_from_at.
  destruct (digit_classes U d Hd) as [D1 D2].
  destruct (letter_classes U w Hw) as [W1 W2].
  unfold Re.match_at, NUMBERED_RE, Plus.
  change (lit ". " ++ w :: post) with (46%N :: 32%N :: w :: post).
  rewrite rmatch_Seq.
  assert (B : forall (k : option char -> str -> option (option char * str)) s,
             Re.rmatch Bol (last_char None pre) s k
             = k (last_char None pre) s).
  { intros k s. cbn [Re.rmatch]. destruct Hl as [-> | ->]; reflexivity. }
  rewrite B. clear B. cbv beta.
  rewrite rmatch_Seq, (@star_stop _ (re_space U) _ d _ _ D1). cbv beta.
  rewrite !rmatch_Seq, (@rmatch_Cls _ (re_digit U) _ d _ _ D2). cbv beta.
  rewrite (@star_stop _ (re_digit U) _ 46%N _ _ eq_refl). cbv beta.
  rewrite rmatch_Seq, rmatch_Chr. cbv beta.
  rewrite !rmatch_Seq.
  rewrite (@rmatch_Cls _ (re_space U) _ 32%N _ _ eq_refl). cbv beta.
  rewrite (@star_stop _ (re_space U) _ w _ _ W1). cbv beta.
  rewrite rmatch_Seq, (@rmatch_Cls _ (re_word U) _ w _ _ W2). cbv beta.
  apply star_total. discriminate.
Qed.

Lemma vocabulary_word_found (U : Unicode) (pre post v : str) :
  In v VOCABULARY ->
  Re.is_word (re_word U) (last_char None pre) = false ->
  Re.is_word (re_word U) (hd_error post) = false ->
  Re.search (WORDS_RE U) (pre ++ v ++ post) = true.
Proof.
  intros Hv Hb Ha. unfold Re.search. apply search_from_at.
  unfold Re.match_at, WORDS_RE. rewrite rmatch_Seq.
  unfold VOCABULARY in Hv.
  repeat (destruct Hv as [<-|Hv];
          [cbn [Re.rmatch ILit lit map list_ascii_of_string N_of_ascii app
                  hd_error Re.is_word];
           rewrite Hb; cbn; rewrite ?Ha; cbn; discriminate |]).
  destruct Hv.
Qed.

(** C9.  The classifier of [has_menu_prompt] answers true exactly when
    the selection marker occurs in the text, or the bracketed yes/no
    pattern is found, or both the numbered-line pattern and one of the
    words allow, deny, approve, reject, permission, permit, grant, refuse
    (between word boundaries, in any case) are found; [has_menu_prompt]
    applies it to [get_screen_state].  So it is true wherever the marker
    stands; wherever one of [[y/n]], [[Y/N]], [[yes/no]], [[Yes/No]]
    stands; and whenever a line that starts with a digit, a dot, a space
    and a letter occurs together with a word of the vocabulary standing
    between non-word characters.  It is false on a numbered list without
    such a word, and on the three texts of the specification it is true,
    true and false. *)
Theorem menu_prompt_classifier (U : Unicode) :
  (forall text,
      menu_prompt_in U text = true <->
      In GLYPH text
      \/ Re.search YES_NO_RE text = true
      \/ (Re.search (NUMBERED_RE U) text = true
          /\ Re.search (WORDS_RE U) text = true))
  /\ (forall s, has_menu_prompt U s = menu_prompt_in U (get_screen_state s))
  /\ (forall pre post, menu_prompt_in U (pre ++ GLYPH :: post) = true)
  /\ (forall pre post w,
         In w [lit "y/n"; lit "Y/N"; lit "yes/no"; lit "Yes/No"] ->
         menu_prompt_in U (pre ++ lit "[" ++ w ++ lit "]" ++ post) = true)
  /\ (forall text,
         (exists pre post d w,
             text = pre ++ d :: lit ". " ++ w :: post
             /\ (last_char None pre = None \/ last_char None pre = Some LF)
             /\ ascii_digit d = true /\ ascii_letter w = true) ->
         (exists pre post v,
             text = pre ++ v ++ post
             /\ In v VOCABULARY
             /\ Re.is_word (re_word U) (last_char None pre) = false
             /\ Re.is_word (re_word U) (hd_error post) = false) ->
         menu_prompt_in U text = true)
  /\ (forall w, In w VOCABULARY ->
                menu_prompt_in U (lit " 1. Yes" ++ LF :: w) = true)
  /\ menu_prompt_in U (lit "2. DENY this request") = true
  /\ menu_prompt_in U (lit "1. Yes" ++ LF :: lit "2. No") = false
  /\ menu_prompt_in U (GLYPH :: lit " 1. Yes" ++ LF :: lit "  2. No") = true
  /\ menu_prompt_in U (lit "Proceed? [y/n]") = true
  /\ menu_prompt_in U (lit "Listening for input...") = false.
Proof.
  assert (Iff : forall text,
             menu_prompt_in U text = true <->
             In GLYPH text
             \/ Re.search YES_NO_RE text = true
             \/ (Re.search (NUMBERED_RE U) text = true
                 /\ Re.search (WORDS_RE U) text = true)).
  { intros text. unfold menu_prompt_in. rewrite <- contains_char.
    destruct (Py.contains [GLYPH] text); [tauto|].
    destruct (Re.search YES_NO_RE text); [tauto|].
    destruct (Re.search (NUMBERED_RE U) text);
      destruct (Re.search (WORDS_RE U) text); simpl;
      intuition discriminate. }
  split; [exact Iff|]. split; [reflexivity|]. split.
  { intros pre post. apply Iff. left. apply in_or_app. right. left.
    reflexivity. }
  split.
  { intros pre post w Hw. apply Iff. right. left.
    apply yes_no_found, Hw. }
  split.
  { intros text (pre & post & d & w & E1 & Hl & Hd & Hw)
           (pre' & post' & v & E2 & Hv & Hb & Ha).
    apply Iff. right. right. split.
    - rewrite E1. apply numbered_line_found; assumption.
    - rewrite E2. apply vocabulary_word_found; assumption. }
  split.
  { intros w Hw. unfold VOCABULARY in Hw.
    repeat (destruct Hw as [<-|Hw]; [vm_compute; reflexivity|]).
    destruct Hw. }
  repeat split; vm_compute; reflexivity.
Qed.
